(** * The export-download handler of the e-commerce demo backend

    A shallow embedding of [demos/ecommerce_shop/backend/routes/export.ts]:
    the [POST /exports/download] handler, its effects on the local file
    system and on the product store, and the order in which it performs
    them.

    The handler is an effectful, fallible program.  It is embedded in a
    state-and-exception monad over a [World] (files, directories, stored
    products) that also keeps the log of the effects performed, in order.
    Everything the handler cannot decide by itself (the platform's URL
    parser, the outcome of the HTTPS request, failures of the store and of
    the file system) is supplied by an environment [Env].

    One request is served at a time, and the callbacks of the download
    promise run in the order the environment gives.  [fs.createWriteStream]
    only makes the stream: the file is opened, which creates it or
    truncates it, after [https.get] has been called, and the open may fail.
    A response that is cut short after its status fires none of the
    listeners of the promise, which then never settles.  [fs.unlink] takes
    effect where it is called: the code does not wait for it, and the model
    does not separate the call from its completion.  [console.log] is left
    out, the [fs.existsSync] it prints is not. *)

From Stdlib Require Import ZArith List Bool Ascii.
From stdpp Require Import gmap strings list fin_maps pretty.

Open Scope Z_scope.

(** ** JavaScript string helpers used by the handler *)

Module Js.

(** [s.split("/")]: never an empty array; one empty segment for the
    empty string. *)
Fixpoint split_slash (s : string) : list string :=
  match s with
  | EmptyString => [EmptyString]
  | String c rest =>
      if Ascii.eqb c "/"%char then EmptyString :: split_slash rest
      else match split_slash rest with
           | seg :: segs => String c seg :: segs
           | [] => [String c EmptyString]
           end
  end.

(** [arr.pop()]: the last element, [undefined] on an empty array. *)
Definition pop (l : list string) : option string := last l.

(** Truthiness of a [string | undefined] value. *)
Definition truthy (v : option string) : bool :=
  match v with
  | Some EmptyString => false
  | Some _ => true
  | None => false
  end.

Fixpoint drop_chars (n : nat) (s : string) : string :=
  match n, s with
  | O, _ => s
  | S n', String _ rest => drop_chars n' rest
  | S _, EmptyString => EmptyString
  end.

(** [s.replace(pat, rep)] with a string pattern and a replacement that
    has no [$] in it: the first occurrence only, the replacement put in
    as it is.  The handler calls it with ["/public/exports"]. *)
Fixpoint replace (pat rep s : string) : string :=
  if String.prefix pat s then rep +:+ drop_chars (String.length pat) s
  else match s with
       | EmptyString => EmptyString
       | String c rest => String c (replace pat rep rest)
       end.

(** A template literal hole filled with a [string | undefined] value. *)
Definition template (v : option string) : string :=
  match v with
  | Some s => s
  | None => "undefined"
  end.

(** What can be thrown: an [Error] with its message, or some other
    value. *)
Inductive Thrown : Type :=
| Error (message : string)
| NonError.

End Js.

(** ** Data model *)

(** Modelled from the spec: [models.ts] is missing.  Design metadata of a
    product: the export URL the handler overwrites, and the remaining
    properties of the object, kept as they are. *)
Record ProductDesign : Type := mkProductDesign {
  designExportUrl : option string;
  designFields : list (string * string)
}.

(** Modelled from the spec: [models.ts] is missing.  A product: an opaque
    id, optional design metadata, and the remaining properties. *)
Record Product : Type := mkProduct {
  id : string;
  canvaDesign : option ProductDesign;
  productFields : list (string * string)
}.

(** Modelled from the spec: [models.ts] is missing.  The request body
    [{ productId?: string, exportedDesignUrl: string }]. *)
Record DownloadExportedDesignRequest : Type := mkRequest {
  productId : option string;
  exportedDesignUrl : string
}.

Inductive Json : Type :=
| ErrorBody (error : string)
| ErrorDetailsBody (error details : string)
| DownloadedBody (downloadedExportUrl : string).

Record Response : Type := mkResponse {
  status : Z;
  body : Json
}.

(** ** The environment of one request *)

(** How the piping of a 200 response into the write stream ends: the
    stream finishes, the request or the stream emits ['error'], or the
    response is cut short and nothing the promise listens for happens. *)
Inductive PipeOutcome : Type :=
| PipeFinish
| PipeRequestError (written : nat) (err : Js.Thrown)
| PipeFileError (written : nat) (err : Js.Thrown)
| PipeCutShort (written : nat).

(** What happens once [https.get] is called: it throws right away (a
    protocol it does not support), the write stream cannot open its file
    and emits ['error'], the request emits ['error'] before any response,
    or the response callback runs with a status code and a body. *)
Inductive Download : Type :=
| GetThrows (err : Js.Thrown)
| OpenFails (err : Js.Thrown)
| RequestError (err : Js.Thrown)
| Responded (statusCode : Z) (content : list Byte.byte) (pipe : PipeOutcome).

Record Env : Type := mkEnv {
  BACKEND_URL : option string;
  __dirname : string;
  (** [new URL(s).pathname]; [None] when the constructor throws. *)
  URL_pathname : string -> option string;
  (** [db.read()] rejects with this value, if any. *)
  db_read_error : option Js.Thrown;
  (** [fs.mkdirSync] throws this value, if any. *)
  mkdir_error : option Js.Thrown;
  net : Download;
  (** [writeProduct] rejects with this value, if any. *)
  writeProduct_error : option Js.Thrown
}.

(** ** Effects *)

Inductive Event : Type :=
| EvDbRead (ok : bool)
| EvNewURL (url : string)
| EvExistsSync (path : string)
| EvMkdirSync (path : string) (ok : bool)
| EvCreateWriteStream (path : string)
| EvOpen (path : string) (ok : bool)
| EvHttpsGet (url : string)
| EvRequestError
| EvStatus (statusCode : Z)
| EvPipe (path : string) (bytes : list Byte.byte)
| EvFileError (path : string)
| EvFinish (path : string)
| EvUnlink (path : string)
| EvWriteProduct (p : Product) (ok : bool)
| EvRespond (r : Response).

Record World : Type := mkWorld {
  files : gmap string (list Byte.byte);
  dirs : gset string;
  products : list Product;
  log : list Event
}.

(** Every directory on the way to [path], as [mkdirSync] with
    [recursive: true] creates them. *)
Fixpoint path_ancestors_from (prefix : string) (segs : list string) : list string :=
  match segs with
  | [] => []
  | seg :: rest =>
      let here := match prefix, seg with
                  | EmptyString, _ => seg
                  | _, _ => prefix +:+ "/" +:+ seg
                  end in
      here :: path_ancestors_from here rest
  end.

Definition path_ancestors (path : string) : list string :=
  match Js.split_slash path with
  | EmptyString :: rest => path_ancestors_from EmptyString (("/" +:+ hd EmptyString rest) :: tl rest)
  | segs => path_ancestors_from EmptyString segs
  end.

(** Modelled from the spec: [routes/product.ts] is missing.  The store's
    product-update operation: the record with the product's id is replaced
    by the product. *)
Fixpoint writeProduct (p : Product) (store : list Product) : list Product :=
  match store with
  | [] => []
  | q :: rest =>
      if String.eqb (id q) (id p) then p :: rest
      else q :: writeProduct p rest
  end.

(** What an effect does to the files, the directories and the store.  A
    call that failed ([ok = false]) changes nothing, and neither does the
    making of a write stream: its file is there, and empty, once the
    stream has opened. *)
Definition effect (e : Event) (w : World) : World :=
  match e with
  | EvMkdirSync path true =>
      mkWorld (files w) (dirs w ∪ {[path]} ∪ list_to_set (path_ancestors path))
              (products w) (log w)
  | EvOpen path true =>
      mkWorld (<[path := []]> (files w)) (dirs w) (products w) (log w)
  | EvPipe path bytes =>
      mkWorld (<[path := default [] (files w !! path) ++ bytes]> (files w))
              (dirs w) (products w) (log w)
  | EvUnlink path =>
      mkWorld (delete path (files w)) (dirs w) (products w) (log w)
  | EvWriteProduct p true =>
      mkWorld (files w) (dirs w) (writeProduct p (products w)) (log w)
  | _ => w
  end.

Definition record (e : Event) (w : World) : World :=
  mkWorld (files w) (dirs w) (products w) (log w ++ [e]).

(** ** The monad of the handler: state, effects and thrown values *)

Inductive Completion (A : Type) : Type :=
| Normal (a : A)
| Throw (err : Js.Thrown)
| Pending.
Arguments Normal {A} a.
Arguments Throw {A} err.
Arguments Pending {A}.

Definition M (A : Type) : Type := World -> Completion A * World.

#[export] Instance M_ret : MRet M := fun A a w => (Normal a, w).

#[export] Instance M_bind : MBind M := fun A B k m w =>
  match m w with
  | (Normal a, w') => k a w'
  | (Throw err, w') => (Throw err, w')
  | (Pending, w') => (Pending, w')
  end.

Definition throw {A : Type} (err : Js.Thrown) : M A := fun w => (Throw err, w).

(** A promise that never settles. *)
Definition never {A : Type} : M A := fun w => (Pending, w).

(** An effect is written to the log and applied to the world. *)
Definition perform (e : Event) : M unit := fun w => (Normal tt, effect e (record e w)).

(** A call that may throw instead of having its effect. *)
Definition attempt (failure : option Js.Thrown) (call : bool -> Event) : M unit :=
  match failure with
  | Some err => perform (call false) ;; throw err
  | None => perform (call true)
  end.

(** Reading the world. *)
Definition gets {A : Type} (f : World -> A) : M A := fun w => (Normal (f w), w).

(** [fs.existsSync(path)] *)
Definition existsSync (path : string) : M bool :=
  perform (EvExistsSync path) ;;
  gets (fun w => bool_decide (path ∈ dirs w) || bool_decide (is_Some (files w !! path))).

Definition try_catch {A : Type} (m : M A) (handle : Js.Thrown -> M A) : M A := fun w =>
  match m w with
  | (Normal a, w') => (Normal a, w')
  | (Throw err, w') => handle err w'
  | (Pending, w') => (Pending, w')
  end.

Definition is_open (e : Event) : bool :=
  match e with EvOpen _ _ => true | _ => false end.

(** The write stream that was made and has not opened yet, if any. *)
Fixpoint unopened_stream (events : list Event) : option string :=
  match events with
  | [] => None
  | EvCreateWriteStream path :: rest =>
      if existsb is_open rest then None else Some path
  | _ :: rest => unopened_stream rest
  end.

(** What is still due when the code of the handler has run: a write
    stream that has not opened yet opens. *)
Definition open_late : M unit := fun w =>
  match unopened_stream (log w) with
  | Some path => perform (EvOpen path true) w
  | None => (Normal tt, w)
  end.

(** ** The handler *)

Section Handler.

Variable env : Env.

(** [await db.read()] *)
Definition db_read : M (list Product) :=
  attempt (db_read_error env) EvDbRead ;; gets products.

(** [new URL(url).pathname] *)
Definition new_URL_pathname (url : string) : M string :=
  perform (EvNewURL url) ;;
  match URL_pathname env url with
  | Some pathname => mret pathname
  | None => throw (Js.Error "Invalid URL")
  end.

(** [res.status(code).json(body)] *)
Definition respond (code : Z) (b : Json) : M Response :=
  let r := mkResponse code b in
  perform (EvRespond r) ;; mret r.

Definition destinationPath : string :=
  Js.replace "/routes" "/public/exports" (__dirname env).

Definition destinationFile (fileName : string) : string :=
  destinationPath +:+ "/" +:+ fileName.

Definition designExportUrl_of (fileName : string) : string :=
  Js.template (BACKEND_URL env) +:+ "/public/exports/" +:+ fileName.

(** [response.pipe(file)] after a 200 status, up to ['finish'] (whose
    listener looks the file up before it resolves), to the first
    ['error'], or to where the response stops. *)
Definition pipe_response (file : string) (content : list Byte.byte)
    (pipe : PipeOutcome) : M unit :=
  match pipe with
  | PipeFinish =>
      perform (EvPipe file content) ;;
      perform (EvFinish file) ;;
      existsSync file ;;
      mret tt
  | PipeRequestError written err =>
      perform (EvPipe file (take written content)) ;;
      perform EvRequestError ;;
      perform (EvUnlink file) ;;
      throw err
  | PipeFileError written err =>
      perform (EvPipe file (take written content)) ;;
      perform (EvFileError file) ;;
      perform (EvUnlink file) ;;
      throw err
  | PipeCutShort written =>
      perform (EvPipe file (take written content)) ;;
      never
  end.

(** The promise of the fourth step: make the write stream, issue the
    GET, and settle on ['finish'] or on the first failure.  The stream
    opens its file once [https.get] has been called; when that call
    throws, the executor stops there and the stream opens later. *)
Definition download (file url : string) : M unit :=
  perform (EvCreateWriteStream file) ;;
  perform (EvHttpsGet url) ;;
  match net env with
  | GetThrows err => throw err
  | OpenFails err =>
      perform (EvOpen file false) ;;
      perform (EvFileError file) ;;
      perform (EvUnlink file) ;;
      throw err
  | RequestError err =>
      perform (EvOpen file true) ;;
      perform EvRequestError ;;
      perform (EvUnlink file) ;;
      throw err
  | Responded statusCode content pipe =>
      perform (EvOpen file true) ;;
      perform (EvStatus statusCode) ;;
      if negb (statusCode =? 200) then
        perform (EvUnlink file) ;;
        throw (Js.Error ("Failed to download: " +:+ pretty statusCode))
      else pipe_response file content pipe
  end.

(** [{ ...product, canvaDesign: { ...product.canvaDesign, designExportUrl } }] *)
Definition with_export_url (product : Product) (url : string) : Product :=
  mkProduct (id product)
    (Some (mkProductDesign (Some url)
             (match canvaDesign product with
              | Some design => designFields design
              | None => []
              end)))
    (productFields product).

(** The try block from its second step on. *)
Definition download_and_record (requestBody : DownloadExportedDesignRequest)
    (product : option Product) : M Response :=
  exportPathName ← new_URL_pathname (exportedDesignUrl requestBody);
  let fileName := Js.pop (Js.split_slash exportPathName) in
  match fileName with
  | Some fileName =>
      if negb (Js.truthy (Some fileName))
      then throw (Js.Error "Could not extract filename from export URL")
      else
        found ← existsSync destinationPath;
        (if negb found
         then attempt (mkdir_error env) (EvMkdirSync destinationPath)
         else mret tt) ;;
        download (destinationFile fileName) (exportedDesignUrl requestBody) ;;
        (match product with
         | Some product =>
             if Js.truthy (productId requestBody)
             then attempt (writeProduct_error env)
                    (EvWriteProduct (with_export_url product (designExportUrl_of fileName)))
             else mret tt
         | None => mret tt
         end) ;;
        respond 200 (DownloadedBody (designExportUrl_of fileName))
  | None => throw (Js.Error "Could not extract filename from export URL")
  end.

(** The try block. *)
Definition try_block (requestBody : DownloadExportedDesignRequest)
    (data : list Product) : M Response :=
  let product :=
    match productId requestBody with
    | Some wanted => List.find (fun product => String.eqb (id product) wanted) data
    | None => None
    end in
  if Js.truthy (productId requestBody) then
    match product with
    | None => respond 404 (ErrorBody "Product not found")
    | Some found =>
        match canvaDesign found with
        | None => respond 400 (ErrorBody "No design found for product")
        | Some _ => download_and_record requestBody product
        end
    end
  else download_and_record requestBody product.

(** The catch block. *)
Definition catch_block (error : Js.Thrown) : M Response :=
  respond 500
    (ErrorDetailsBody "Failed to download exported design"
       (match error with
        | Js.Error message => message
        | Js.NonError => "Unknown error"
        end)).

(** [router.post(endpoints.DOWNLOAD_EXPORT, async (req, res) => ...)].
    A [Throw] completion is a rejected promise, a [Pending] one a promise
    that never settles: no response was sent. *)
Definition handler (requestBody : DownloadExportedDesignRequest) : M Response :=
  data ← db_read;
  r ← try_catch (try_block requestBody data) catch_block;
  open_late ;;
  mret r.

End Handler.

(** One request, served from a world whose log is empty. *)
Definition fresh (fs : gmap string (list Byte.byte)) (ds : gset string)
    (store : list Product) : World :=
  mkWorld fs ds store [].

(** ** A stand-in for the platform's URL parser

    Enough of [new URL(s).pathname] for URLs of the shape
    [scheme://authority/path?query#fragment]; used to run the handler on
    concrete requests. *)

Module Url.

Fixpoint after_scheme (s : string) : option string :=
  match s with
  | String ":" (String "/" (String "/" rest)) => Some rest
  | String _ rest => after_scheme rest
  | EmptyString => None
  end.

Definition ends_authority (c : ascii) : bool :=
  Ascii.eqb c "/" || Ascii.eqb c "?" || Ascii.eqb c "#".

Fixpoint skip_authority (s : string) : string :=
  match s with
  | EmptyString => EmptyString
  | String c rest => if ends_authority c then s else skip_authority rest
  end.

Fixpoint take_path (s : string) : string :=
  match s with
  | EmptyString => EmptyString
  | String c rest =>
      if Ascii.eqb c "?" || Ascii.eqb c "#" then EmptyString
      else String c (take_path rest)
  end.

Definition pathname (s : string) : option string :=
  match after_scheme s with
  | None => None
  | Some rest =>
      match take_path (skip_authority rest) with
      | EmptyString => Some "/"
      | path => Some path
      end
  end.

End Url.

Definition bytes_of (s : string) : list Byte.byte := String.list_byte_of_string s.

(** ** Concrete requests

    A backend served from [/app/backend], a store with two products (one
    with design metadata, one without), and the environments of a
    successful download, of a 404 answer, of a store that refuses the
    update, of a store that cannot be read and of a GET that throws. *)

Module Demo.

Definition url : string := "https://cdn.example/a/b/3333-83.png?sig=1".

Definition png : list Byte.byte := bytes_of "PNG!".

Definition env_with (read_error : option Js.Thrown) (answer : Download)
    (write_error : option Js.Thrown) : Env :=
  mkEnv (Some "http://localhost:3001") "/app/backend/routes" Url.pathname
        read_error None answer write_error.

Definition env_ok : Env := env_with None (Responded 200 png PipeFinish) None.

Definition env_404 : Env := env_with None (Responded 404 [] PipeFinish) None.

Definition env_store_fails : Env :=
  env_with None (Responded 200 png PipeFinish) (Some (Js.Error "EACCES: permission denied")).

Definition env_read_fails : Env :=
  env_with (Some (Js.Error "ENOENT: no such file or directory"))
           (Responded 200 png PipeFinish) None.

Definition env_get_throws : Env :=
  env_with None (GetThrows (Js.Error "ERR_INVALID_PROTOCOL")) None.

Definition store : list Product :=
  [ mkProduct "1" (Some (mkProductDesign None [("designId", "D1")])) [("name", "Mug")];
    mkProduct "2" None [("name", "Shirt")] ].

Definition dest : string := "/app/backend/public/exports/3333-83.png".

Definition old_files : gmap string (list Byte.byte) := {[ dest := bytes_of "old" ]}.

End Demo.

(** * Properties *)

(** What the client gets, and the world the request leaves behind. *)
Definition outcome (env : Env) (req : DownloadExportedDesignRequest) (w : World) :
    Completion Response :=
  (handler env req w).1.

Definition final (env : Env) (req : DownloadExportedDesignRequest) (w : World) : World :=
  (handler env req w).2.

(** The file name the handler derives from the source URL. *)
Definition fileName_of (env : Env) (url : string) : option string :=
  pathname ← URL_pathname env url; Js.pop (Js.split_slash pathname).

(** The world after a sequence of effects. *)
Definition replay (events : list Event) (w : World) : World :=
  fold_left (fun w e => effect e (record e w)) events w.

(** The failures the download promise listens for: a status other than
    200, ['error'] on the request, ['error'] on the write stream. *)
Definition failed_download (d : Download) : bool :=
  match d with
  | GetThrows _ => false
  | OpenFails _ => true
  | RequestError _ => true
  | Responded statusCode _ pipe =>
      negb (statusCode =? 200) ||
      match pipe with
      | PipeFinish | PipeCutShort _ => false
      | PipeRequestError _ _ | PipeFileError _ _ => true
      end
  end.

(** The first step of the try block lets the request through: there is
    no productId to check, or the product exists and has design
    metadata. *)
Definition passes_product_check (req : DownloadExportedDesignRequest)
    (store : list Product) : Prop :=
  Js.truthy (productId req) = false \/
  exists pid p d,
    productId req = Some pid /\
    List.find (fun product => String.eqb (id product) pid) store = Some p /\
    canvaDesign p = Some d.

(** A replacement with a [$] in it is not inserted as it is. *)
Fixpoint contains_dollar (s : string) : bool :=
  match s with
  | EmptyString => false
  | String c rest => Ascii.eqb c "$" || contains_dollar rest
  end.

(** ** More observations on strings and logs *)

(** Whether a string has a ["/"] in it. *)
Fixpoint contains_slash (s : string) : bool :=
  match s with
  | EmptyString => false
  | String c rest => Ascii.eqb c "/" || contains_slash rest
  end.

(** [segs.join("/")] *)
Fixpoint join_slash (segs : list string) : string :=
  match segs with
  | [] => EmptyString
  | [seg] => seg
  | seg :: rest => seg +:+ "/" +:+ join_slash rest
  end.

Definition is_create (e : Event) : bool :=
  match e with EvCreateWriteStream _ => true | _ => false end.

Definition is_get (e : Event) : bool :=
  match e with EvHttpsGet _ => true | _ => false end.

Definition is_respond (e : Event) : bool :=
  match e with EvRespond _ => true | _ => false end.

(** [error instanceof Error ? error.message : "Unknown error"] *)
Definition details_of (err : Js.Thrown) : string :=
  match err with
  | Js.Error message => message
  | Js.NonError => "Unknown error"
  end.

(** More environments: no [BACKEND_URL], a directory that cannot be
    created, a request that emits ['error'], a response cut short after
    two bytes, a file that cannot be opened. *)
Module Edge.

Definition env_no_base : Env :=
  mkEnv None "/app/backend/routes" Url.pathname
        None None (Responded 200 Demo.png PipeFinish) None.

Definition env_mkdir_fails : Env :=
  mkEnv (Some "http://localhost:3001") "/app/backend/routes" Url.pathname
        None (Some (Js.Error "EACCES: permission denied, mkdir"))
        (Responded 200 Demo.png PipeFinish) None.



Definition env_open_fails : Env :=
  Demo.env_with None (OpenFails (Js.Error "EACCES: permission denied, open")) None.

Definition exports : string := "/app/backend/public/exports".

Definition other : string := "/app/backend/public/exports/other.png".

Definition kept_files : gmap string (list Byte.byte) := {[ other := bytes_of "keep" ]}.

End Edge.

(** ** The helpers on the values of the running example *)

Example split_slash_of_export_path :
  Js.split_slash "/a/b/3333-83.png" = [EmptyString; "a"; "b"; "3333-83.png"].
Proof. reflexivity. Qed.

Example pop_of_root_path : Js.pop (Js.split_slash "/") = Some EmptyString.
Proof. reflexivity. Qed.

Example replace_in_dirname : destinationPath Demo.env_ok = "/app/backend/public/exports".
Proof. reflexivity. Qed.

Example replace_first_occurrence_only :
  Js.replace "/routes" "/public/exports" "/routes/routes" = "/public/exports/routes".
Proof. reflexivity. Qed.

Example pathname_of_bare_host : Url.pathname "https://host" = Some "/".
Proof. reflexivity. Qed.

Example pathname_of_export_url : Url.pathname Demo.url = Some "/a/b/3333-83.png".
Proof. reflexivity. Qed.

Example ancestors_of_exports_directory :
  path_ancestors "/app/backend/public/exports" =
    ["/app"; "/app/backend"; "/app/backend/public"; "/app/backend/public/exports"].
Proof. reflexivity. Qed.

Example destination_of_export : destinationFile Demo.env_ok "3333-83.png" = Demo.dest.
Proof. reflexivity. Qed.

Example run_of_open_failure :
  handler Edge.env_open_fails (mkRequest None Demo.url) (fresh ∅ {[ Edge.exports ]} Demo.store) =
    (Normal (mkResponse 500
               (ErrorDetailsBody "Failed to download exported design"
                  "EACCES: permission denied, open")),
     mkWorld ∅ {[ Edge.exports ]} Demo.store
       [EvDbRead true; EvNewURL Demo.url; EvExistsSync Edge.exports;
        EvCreateWriteStream Demo.dest; EvHttpsGet Demo.url;
        EvOpen Demo.dest false; EvFileError Demo.dest; EvUnlink Demo.dest;
        EvRespond (mkResponse 500
          (ErrorDetailsBody "Failed to download exported design"
             "EACCES: permission denied, open"))]).
Proof. vm_compute. reflexivity. Qed.

Example status_in_details : "Failed to download: " +:+ pretty 404 = "Failed to download: 404".
Proof. reflexivity. Qed.

(** ** Walking the paths of the handler *)

Ltac unfold_handler :=
  cbv beta iota zeta delta
    [handler try_block download_and_record download pipe_response catch_block
     respond db_read new_URL_pathname existsSync attempt gets try_catch open_late
     perform throw never mbind M_bind mret M_ret fresh].

Ltac split_head :=
  match goal with
  | |- context [match ?x with _ => _ end] =>
      lazymatch x with
      | context [match _ with _ => _ end] => fail
      | _ => destruct x eqn:?
      end
  end.

(** The stream that is still to open is read off the log. *)
Ltac late_stream :=
  repeat match goal with
    | H : unopened_stream _ = _ |- _ =>
        cbn [unopened_stream existsb is_open orb log effect record app] in H;
        first [discriminate H | injection H as <- | clear H]
    end.

Ltac bool_facts :=
  repeat match goal with
    | H : negb _ = true |- _ => apply negb_true_iff in H
    | H : negb _ = false |- _ => apply negb_false_iff in H
    | H : (_ =? _) = true |- _ => apply Z.eqb_eq in H
    | H : (_ =? _) = false |- _ => apply Z.eqb_neq in H
    end.

Ltac world_simpl :=
  cbn [effect record files dirs products log app fst snd status body] in *.

(** Name the result of the run, then follow every path through the
    handler; each goal is left with the world and the completion of one
    path. *)
Ltac handler_paths :=
  unfold outcome, final in *;
  match goal with
  | |- context [handler ?e ?r ?w] =>
      let res := fresh "res" in
      let Hrun := fresh "Hrun" in
      remember (handler e r w) as res eqn:Hrun;
      symmetry in Hrun; destruct res as [? ?]; revert Hrun
  | H : context [handler ?e ?r ?w] |- _ =>
      let res := fresh "res" in
      let Hrun := fresh "Hrun" in
      remember (handler e r w) as res eqn:Hrun;
      symmetry in Hrun; destruct res as [? ?]; revert Hrun
  end;
  unfold_handler; cbn [productId exportedDesignUrl];
  repeat (split_head; cbv beta iota);
  late_stream;
  intros [= <- <-]; world_simpl; bool_facts.

Ltac in_log H :=
  cbn [In] in H;
  repeat match type of H with
         | _ \/ _ => destruct H as [H|H]; [first [discriminate H | idtac]|]
         | False => destruct H
         end.

(** Cut a list whose spine is known at a given position. *)
Ltac cut_at n :=
  lazymatch goal with
  | |- ?l = ?before ++ ?e :: ?after =>
      unify before (take n l); unify after (drop (S n) l); reflexivity
  end.

Ltac cut_log :=
  first [cut_at 0%nat | cut_at 1%nat | cut_at 2%nat | cut_at 3%nat | cut_at 4%nat
        | cut_at 5%nat | cut_at 6%nat | cut_at 7%nat | cut_at 8%nat | cut_at 9%nat
        | cut_at 10%nat | cut_at 11%nat | cut_at 12%nat | cut_at 13%nat].

Ltac cut_end :=
  lazymatch goal with
  | |- ?l = ?before ++ ?suffix =>
      unify before (take (length l - length suffix) l); reflexivity
  end.

Lemma fileName_of_eq env url pathname fileName :
  URL_pathname env url = Some pathname ->
  Js.pop (Js.split_slash pathname) = Some fileName ->
  fileName_of env url = Some fileName.
Proof. intros Hp Hf. unfold fileName_of. rewrite Hp. exact Hf. Qed.

(** Every way of cutting a list whose spine is known: [Hcut] equates the
    list with [before ++ e :: after]. *)
Ltac each_cut before Hcut :=
  destruct before as [|? before]; cbn [app] in Hcut;
  [ first [discriminate Hcut | injection Hcut as ? ?; subst; try exact I]
  | first [discriminate Hcut | injection Hcut as ? Hcut; subst; each_cut before Hcut] ].

(** ** The log is a faithful account of the run *)

Lemma open_truncates path w :
  files (effect (EvOpen path true) w) !! path = Some [].
Proof. cbn. apply lookup_insert_eq. Qed.

Lemma replay_app (before after : list Event) (w : World) :
  replay (before ++ after) w = replay after (replay before w).
Proof. apply fold_left_app. Qed.

Lemma handler_replays_log env req fs ds store :
  final env req (fresh fs ds store) =
  replay (log (final env req (fresh fs ds store))) (fresh fs ds store).
Proof. handler_paths; reflexivity. Qed.

(** ** The store update *)

Lemma truthy_Some (s : string) : Js.truthy (Some s) = true <-> s <> EmptyString.
Proof. destruct s; cbn; split; intros; congruence. Qed.

Lemma find_id_eq (wanted : string) (store : list Product) (p : Product) :
  List.find (fun product => String.eqb (id product) wanted) store = Some p ->
  id p = wanted.
Proof.
  intros H. apply List.find_some in H as [_ H]. now apply String.eqb_eq in H.
Qed.

(** [writeProduct] replaces the record that [find] returns for the
    product's id, and nothing else. *)
Lemma writeProduct_replaces_found (p p' : Product) (store : list Product) :
  List.find (fun product => String.eqb (id product) (id p')) store = Some p ->
  exists before after,
    store = before ++ p :: after /\
    writeProduct p' store = before ++ p' :: after /\
    Forall (fun q => id q <> id p') before.
Proof.
  induction store as [|q rest IH]; cbn; [discriminate|].
  destruct (String.eqb (id q) (id p')) eqn:Heq; intros H.
  - injection H as ->. exists [], rest. cbn. auto.
  - destruct (IH H) as (before & after & -> & -> & Hall).
    exists (q :: before), after. cbn. repeat split; [].
    constructor; [|exact Hall]. now apply String.eqb_neq.
Qed.

(** ** Strings *)

Lemma string_app_cons (x : ascii) (a b : string) :
  String x a +:+ b = String x (a +:+ b).
Proof. reflexivity. Qed.

Lemma string_app_nil_l (a : string) : EmptyString +:+ a = a.
Proof. reflexivity. Qed.

Lemma string_app_assoc (a b c : string) : (a +:+ b) +:+ c = a +:+ (b +:+ c).
Proof.
  induction a as [|x a IH]; [reflexivity|].
  rewrite !string_app_cons. now f_equal.
Qed.

Lemma string_app_nil_r (a : string) : a +:+ EmptyString = a.
Proof.
  induction a as [|x a IH]; [reflexivity|].
  rewrite string_app_cons. now f_equal.
Qed.

Lemma string_length_app (a b : string) :
  String.length (a +:+ b) = (String.length a + String.length b)%nat.
Proof.
  induction a as [|x a IH]; [reflexivity|].
  rewrite string_app_cons. cbn. now f_equal.
Qed.

Lemma split_slash_nonempty (s : string) : Js.split_slash s <> [].
Proof.
  induction s as [|c rest IH]; cbn; [discriminate|].
  destruct (Ascii.eqb c "/"); [discriminate|].
  destruct (Js.split_slash rest); discriminate.
Qed.

Lemma split_slash_app (a b : string) :
  Js.split_slash (a +:+ String "/" b) = Js.split_slash a ++ Js.split_slash b.
Proof.
  induction a as [|c a IH]; [reflexivity|].
  rewrite string_app_cons. cbn [Js.split_slash].
  rewrite IH. destruct (Ascii.eqb c "/"); [reflexivity|].
  pose proof (split_slash_nonempty a) as Hne.
  destruct (Js.split_slash a); [contradiction | reflexivity].
Qed.

Lemma split_slash_without_slash (s : string) :
  contains_slash s = false -> Js.split_slash s = [s].
Proof.
  induction s as [|c rest IH]; cbn; [reflexivity|].
  intros H. apply orb_false_iff in H as [Hc Hrest]. rewrite Hc, (IH Hrest). reflexivity.
Qed.

Lemma split_slash_segments (s : string) :
  Forall (fun seg => contains_slash seg = false) (Js.split_slash s).
Proof.
  induction s as [|c rest IH]; cbn; [repeat constructor|].
  destruct (Ascii.eqb c "/") eqn:Hc; [constructor; [reflexivity | exact IH]|].
  destruct (Js.split_slash rest) as [|seg segs]; [repeat constructor; cbn; now rewrite Hc|].
  inversion IH; subst. constructor; [cbn; now rewrite Hc | assumption].
Qed.

(** What [split("/").pop()] returns has no ["/"] in it, and the string
    is that segment or ends in ["/"] followed by it. *)
Lemma popped_segment_is_suffix (s f : string) :
  Js.pop (Js.split_slash s) = Some f ->
  contains_slash f = false /\ (s = f \/ exists dir, s = dir +:+ "/" +:+ f).
Proof.
  unfold Js.pop. revert f. induction s as [|c rest IH]; intros f H.
  - cbn in H. injection H as <-. split; [reflexivity | now left].
  - cbn [Js.split_slash] in H.
    pose proof (split_slash_nonempty rest) as Hne.
    destruct (Ascii.eqb_spec c "/") as [->|Hc].
    + rewrite last_cons in H.
      destruct (last (Js.split_slash rest)) as [g|] eqn:Hlast;
        [|apply last_None in Hlast; contradiction].
      injection H as <-. destruct (IH g eq_refl) as [Hg [->|[dir ->]]].
      * split; [exact Hg|]. right. exists EmptyString. reflexivity.
      * split; [exact Hg|]. right. exists (String "/" dir). reflexivity.
    + destruct (Js.split_slash rest) as [|seg segs] eqn:Hsplit; [contradiction|].
      rewrite last_cons in H. destruct (last segs) as [g|] eqn:Hlast.
      * injection H as <-.
        destruct (IH g) as [Hg [->|[dir ->]]]; [now rewrite last_cons, Hlast | |].
        -- rewrite (split_slash_without_slash g Hg) in Hsplit.
           injection Hsplit as _ <-. discriminate Hlast.
        -- split; [exact Hg|]. right. exists (String c dir). reflexivity.
      * injection H as <-. apply last_None in Hlast. subst segs.
        destruct (IH seg eq_refl) as [Hseg [->|[dir ->]]].
        -- split; [|now left]. cbn. apply Ascii.eqb_neq in Hc. now rewrite Hc.
        -- exfalso. change ("/" +:+ seg) with (String "/" seg) in Hsplit.
           rewrite split_slash_app in Hsplit.
           pose proof (split_slash_nonempty dir) as Hd.
           pose proof (split_slash_nonempty seg) as Hs.
           destruct (Js.split_slash dir) as [|? [|? ?]]; [contradiction | |];
             destruct (Js.split_slash seg); try contradiction; discriminate Hsplit.
Qed.

(** The other way round. *)
Lemma suffix_is_popped_segment (s f : string) :
  contains_slash f = false ->
  s = f \/ (exists dir, s = dir +:+ "/" +:+ f) ->
  Js.pop (Js.split_slash s) = Some f.
Proof.
  unfold Js.pop. intros Hf [->|[dir ->]].
  - now rewrite split_slash_without_slash.
  - change ("/" +:+ f) with (String "/" f).
    rewrite split_slash_app, (split_slash_without_slash f Hf). apply last_snoc.
Qed.

(** The last segment is empty exactly for the empty string and for the
    strings that end in ["/"]. *)
Lemma no_file_name_iff (s : string) :
  Js.truthy (Js.pop (Js.split_slash s)) = false <->
  s = EmptyString \/ exists dir, s = dir +:+ "/".
Proof.
  split.
  - intros H. destruct (Js.pop (Js.split_slash s)) as [f|] eqn:Hpop.
    + destruct f; [|discriminate H].
      apply popped_segment_is_suffix in Hpop as [_ [->|[dir ->]]];
        [now left | right; now exists dir].
    + apply last_None in Hpop. now destruct (split_slash_nonempty s).
  - intros Hs.
    assert (Hpop : Js.pop (Js.split_slash s) = Some EmptyString).
    { apply suffix_is_popped_segment; [reflexivity|].
      destruct Hs as [->|[dir ->]]; [now left | right; now exists dir]. }
    now rewrite Hpop.
Qed.

Section Requests.

Variable env : Env.
Variable fs : gmap string (list Byte.byte).
Variable ds : gset string.
Variable store : list Product.

Let w0 : World := fresh fs ds store.

(** ** How far a run gets

    The properties below speak of requests that get to a certain step;
    the log says so, and these lemmas say when. *)

(** The URL is parsed exactly when the store could be read and the
    product check let the request through. *)
Lemma file_name_derivation_reached_iff (req : DownloadExportedDesignRequest) :
  In (EvNewURL (exportedDesignUrl req)) (log (final env req w0)) <->
  db_read_error env = None /\ passes_product_check req store.
Proof.
  subst w0. unfold passes_product_check. split.
  - intros Hin. handler_paths; in_log Hin.
    all: split; [reflexivity|].
    all: first [ left; congruence | right; eauto 10 ].
  - intros [Hread Hcheck]. revert Hcheck. handler_paths; intros Hcheck.
    all: try discriminate.
    all: try (cbn [In]; tauto).
    all: exfalso; destruct Hcheck as [Hc | (pid & p' & d & Hp & Hf & Hd)];
      simplify_eq; congruence.
Qed.

(** The GET is issued exactly when, moreover, the URL has a non-empty last
    path segment and the exports directory exists or can be created. *)
Lemma download_started_iff (req : DownloadExportedDesignRequest) :
  In (EvHttpsGet (exportedDesignUrl req)) (log (final env req w0)) <->
  In (EvNewURL (exportedDesignUrl req)) (log (final env req w0)) /\
  exists fileName,
    fileName_of env (exportedDesignUrl req) = Some fileName /\
    fileName <> EmptyString /\
    (destinationPath env ∈ ds \/ is_Some (fs !! destinationPath env) \/
     mkdir_error env = None).
Proof.
  subst w0. split.
  - intros Hin. handler_paths; in_log Hin.
    all: split; [cbn [In]; tauto|].
    all: eexists; split; [eapply fileName_of_eq; eassumption|].
    all: split; [now apply truthy_Some|].
    all: try (right; right; reflexivity).
    all: match goal with
         | H : _ || _ = true |- _ =>
             apply orb_true_iff in H as [H|H]; apply bool_decide_eq_true in H; tauto
         end.
  - intros [Hin (fileName & Hname & Hne & Hdir)]. revert Hdir.
    unfold fileName_of in Hname. apply truthy_Some in Hne.
    handler_paths; intros Hdir; in_log Hin.
    all: cbn [mbind option_bind] in Hname; simplify_eq.
    all: try congruence.
    all: try (cbn [In]; tauto).
    all: exfalso.
    all: match goal with
         | H : _ || _ = false |- _ =>
             apply orb_false_iff in H as [H1 H2];
             apply bool_decide_eq_false in H1, H2
         end.
    all: destruct Hdir as [?|[?|?]]; [tauto | tauto | congruence].
Qed.

(** A status is seen exactly when the GET is issued and answered. *)
Lemma status_seen_iff (req : DownloadExportedDesignRequest) (s : Z) :
  In (EvStatus s) (log (final env req w0)) <->
  In (EvHttpsGet (exportedDesignUrl req)) (log (final env req w0)) /\
  exists content pipe, net env = Responded s content pipe.
Proof.
  subst w0. split.
  - intros Hin. handler_paths; in_log Hin; simplify_eq.
    all: split; [cbn [In]; tauto | eauto].
  - intros [Hin (content & pipe & Hnet)].
    handler_paths; in_log Hin; simplify_eq.
    all: cbn [In]; tauto.
Qed.

(** ** The properties *)

(** C1, as the code has it. When the download fails by a status other
    than 200, by an error of the request or by an error of the write
    stream, the destination file is unlinked right before the 500
    response is sent, and no file is left at the destination path. *)
Theorem failed_download_unlinks_before_responding
    (req : DownloadExportedDesignRequest) :
  In (EvHttpsGet (exportedDesignUrl req)) (log (final env req w0)) ->
  failed_download (net env) = true ->
  exists fileName before r,
    fileName_of env (exportedDesignUrl req) = Some fileName /\
    log (final env req w0) =
      before ++ [EvUnlink (destinationFile env fileName); EvRespond r] /\
    outcome env req w0 = Normal r /\
    status r = 500 /\
    files (final env req w0) !! destinationFile env fileName = None.
Proof.
  intros Hin Hfail. subst w0. revert Hfail.
  handler_paths; intros Hfail; in_log Hin.
  all: cbn [failed_download] in Hfail.
  all: try discriminate.
  all: try (exfalso; apply orb_true_iff in Hfail as [Hfail|Hfail];
            [apply negb_true_iff, Z.eqb_neq in Hfail; congruence | discriminate]).
  all: do 3 eexists; split; [eapply fileName_of_eq; eassumption|].
  all: split; [cut_end|].
  all: repeat split; apply lookup_delete_eq.
Qed.

(** C2, as the code has it. Body bytes are written to the destination
    file only after a 200 status has been seen.  The file itself is
    created, or emptied, when the write stream opens, and that is not
    tied to the status: the stream is made right before the GET is
    issued, the file is then still what it was, and the stream opens
    once the GET has been issued, whatever the answer is. *)
Theorem body_written_only_after_200_but_file_opened_regardless
    (req : DownloadExportedDesignRequest) (before after : list Event) (e : Event) :
  log (final env req w0) = before ++ e :: after ->
  match e with
  | EvPipe _ _ => In (EvStatus 200) before
  | EvHttpsGet _ =>
      exists fileName earlier ok,
        fileName_of env (exportedDesignUrl req) = Some fileName /\
        before = earlier ++ [EvCreateWriteStream (destinationFile env fileName)] /\
        files (replay before w0) !! destinationFile env fileName =
          fs !! destinationFile env fileName /\
        In (EvOpen (destinationFile env fileName) ok) after
  | EvOpen path ok =>
      exists fileName,
        fileName_of env (exportedDesignUrl req) = Some fileName /\
        path = destinationFile env fileName /\
        In (EvHttpsGet (exportedDesignUrl req)) before /\
        (ok = true ->
         files (replay (before ++ [EvOpen path true]) w0) !! path = Some [])
  | _ => True
  end.
Proof.
  intros Hcut. subst w0.
  match goal with |- ?G => set (claim := G) end.
  revert Hcut. handler_paths; intros Hcut; subst claim.
  all: each_cut before Hcut.
  all: try (cbn [In]; tauto).
  all: try (do 3 eexists; split; [eapply fileName_of_eq; eassumption|];
            split; [cut_end|]; split; [reflexivity | cbn [In]; eauto]; fail).
  all: eexists; split; [eapply fileName_of_eq; eassumption|].
  all: split; [reflexivity|].
  all: split; [cbn [In]; tauto|].
  all: first [ intros Hok; discriminate Hok
             | intros _; cbn; apply lookup_insert_eq ].
Qed.

(** C3, as the code has it. For a request with a non-empty productId and
    a readable store: when no product has that id the response is 404,
    when the product has no design metadata the response is 400, and
    in both cases the handler has done nothing but read the store and
    respond. *)
Theorem missing_product_or_design_is_refused
    (req : DownloadExportedDesignRequest) (pid : string) :
  productId req = Some pid ->
  pid <> EmptyString ->
  db_read_error env = None ->
  match List.find (fun product => String.eqb (id product) pid) store with
  | None =>
      let r := mkResponse 404 (ErrorBody "Product not found") in
      outcome env req w0 = Normal r /\
      log (final env req w0) = [EvDbRead true; EvRespond r]
  | Some product =>
      match canvaDesign product with
      | None =>
          let r := mkResponse 400 (ErrorBody "No design found for product") in
          outcome env req w0 = Normal r /\
          log (final env req w0) = [EvDbRead true; EvRespond r]
      | Some _ => True
      end
  end.
Proof.
  intros Hpid Hne Hread. subst w0. destruct req as [opid source].
  cbn in Hpid. subst opid. apply truthy_Some in Hne.
  handler_paths; simplify_eq.
  all: try exact I.
  all: split; reflexivity.
Qed.

(** C4. Whenever the remote GET answers with a status other than 200,
    no file is left at the derived destination path and the response
    is 500, its details naming the status. *)
Theorem non_200_status_removes_file_and_responds_500
    (req : DownloadExportedDesignRequest) (s : Z) :
  In (EvStatus s) (log (final env req w0)) ->
  s <> 200 ->
  exists fileName,
    fileName_of env (exportedDesignUrl req) = Some fileName /\
    files (final env req w0) !! destinationFile env fileName = None /\
    outcome env req w0 =
      Normal (mkResponse 500
                (ErrorDetailsBody "Failed to download exported design"
                   ("Failed to download: " +:+ pretty s))).
Proof.
  intros Hin Hs. subst w0. handler_paths; in_log Hin; simplify_eq.
  all: eexists; split; [eapply fileName_of_eq; eassumption|].
  all: split; [apply lookup_delete_eq | reflexivity].
Qed.

(** C5, as the code has it. When the GET answers 200 with body [B], the
    body is piped to the end and the store update, if one is due, does
    not throw, the handler responds 200 with [downloadedExportUrl] made of
    the configured base URL, [/public/exports/] and the file name, and the
    file of that name in the exports directory holds exactly [B].  The
    file name is the last path segment of the source URL: it has no ["/"]
    in it, and the pathname is the file name or ends in ["/"] followed by
    it. *)
Theorem successful_download_stores_body_and_returns_url
    (req : DownloadExportedDesignRequest) (B : list Byte.byte) (base : string) :
  net env = Responded 200 B PipeFinish ->
  In (EvStatus 200) (log (final env req w0)) ->
  (Js.truthy (productId req) = true -> writeProduct_error env = None) ->
  BACKEND_URL env = Some base ->
  exists pathname fileName,
    URL_pathname env (exportedDesignUrl req) = Some pathname /\
    contains_slash fileName = false /\
    (pathname = fileName \/ exists dir, pathname = dir +:+ "/" +:+ fileName) /\
    outcome env req w0 =
      Normal (mkResponse 200
                (DownloadedBody (base +:+ "/public/exports/" +:+ fileName))) /\
    files (final env req w0) !! (destinationPath env +:+ "/" +:+ fileName) = Some B.
Proof.
  intros Hnet Hin Hwrite Hbase. subst w0. revert Hwrite.
  handler_paths; intros Hwrite; in_log Hin; simplify_eq.
  all: try (specialize (Hwrite eq_refl); discriminate Hwrite).
  all: match goal with
       | Hf : Js.pop _ = Some ?f |- _ =>
           destruct (popped_segment_is_suffix _ _ Hf) as [Hslash Hlast]
       end.
  all: do 2 eexists; split; [reflexivity|].
  all: split; [exact Hslash|].
  all: split; [exact Hlast|].
  all: unfold designExportUrl_of; rewrite Hbase; cbn [Js.template].
  all: split; [reflexivity|].
  all: unfold destinationFile; rewrite lookup_insert_eq, lookup_insert_eq; reflexivity.
Qed.

(** C6. After a successful download for a product that exists and has
    design metadata, the store holds, in the place of that product, the
    same product with [designExportUrl] set to the returned URL, which
    is the locally served URL of the derived file name: its id, its other
    properties and the other properties of its design metadata are the
    ones it had, and so is every other product. *)
Theorem successful_download_records_export_url
    (req : DownloadExportedDesignRequest) (pid url : string)
    (p : Product) (d : ProductDesign) :
  productId req = Some pid ->
  pid <> EmptyString ->
  List.find (fun product => String.eqb (id product) pid) store = Some p ->
  canvaDesign p = Some d ->
  outcome env req w0 = Normal (mkResponse 200 (DownloadedBody url)) ->
  (exists fileName,
     fileName_of env (exportedDesignUrl req) = Some fileName /\
     url = designExportUrl_of env fileName) /\
  exists before after,
    store = before ++ p :: after /\
    products (final env req w0) =
      before ++
      mkProduct (id p) (Some (mkProductDesign (Some url) (designFields d)))
                (productFields p) :: after /\
    Forall (fun q => id q <> pid) before.
Proof.
  intros Hpid Hne Hfind Hdesign Hout. subst w0. destruct req as [opid source].
  cbn in *. subst opid. apply truthy_Some in Hne. revert Hout.
  handler_paths; intros; simplify_eq.
  all: split; [eexists; split; [eapply fileName_of_eq; eassumption | reflexivity]|].
  all: unfold with_export_url; rewrite Hdesign.
  all: pose proof (find_id_eq _ _ _ Hfind) as Hid.
  all: match goal with
       | |- context [writeProduct ?p' store] =>
           destruct (writeProduct_replaces_found p p' store)
             as (before & after & Hstore & Hnew & Hall);
           [cbn [id]; rewrite Hid; exact Hfind|]
       end.
  all: exists before, after; cbn [id] in Hall; rewrite Hid in Hall; auto.
Qed.

(** C7 fails on the code. [db.read()] is awaited before the try block:
    when it rejects, the promise of the handler rejects with the same
    value, and no response is sent. *)
Theorem store_read_error_is_not_caught
    (req : DownloadExportedDesignRequest) (w : World) (err : Js.Thrown) :
  db_read_error env = Some err ->
  handler env req w = (Throw err, record (EvDbRead false) w).
Proof.
  intros Hread. unfold_handler. rewrite Hread. reflexivity.
Qed.


(** C8, as the code has it. When the store can be read, the request
    passes the product check and the pathname of the source URL is empty
    or ends in ["/"], the handler responds 500 with the file-name
    extraction error, and has touched neither the file system nor the
    network. *)
Theorem url_without_file_name_is_rejected
    (req : DownloadExportedDesignRequest) (pathname : string) :
  db_read_error env = None ->
  passes_product_check req store ->
  URL_pathname env (exportedDesignUrl req) = Some pathname ->
  pathname = EmptyString \/ (exists dir, pathname = dir +:+ "/") ->
  let r := mkResponse 500
             (ErrorDetailsBody "Failed to download exported design"
                "Could not extract filename from export URL") in
  outcome env req w0 = Normal r /\
  log (final env req w0) =
    [EvDbRead true; EvNewURL (exportedDesignUrl req); EvRespond r].
Proof.
  intros Hread Hcheck Hpath Hlast r.
  assert (Hin : In (EvNewURL (exportedDesignUrl req)) (log (final env req w0)))
    by (apply file_name_derivation_reached_iff; now split).
  apply no_file_name_iff in Hlast. clear Hcheck. subst w0 r.
  handler_paths; in_log Hin; simplify_eq.
  all: try (split; reflexivity).
  all: exfalso; congruence.
Qed.



(** X2. When the store can be read, the request passes the product check
    and [new URL] refuses the source URL, the answer is 500 with the error
    text of the catch block and the message of what was thrown as
    details, before the file system or the network is touched. *)
Theorem malformed_url_is_rejected (req : DownloadExportedDesignRequest) :
  db_read_error env = None ->
  passes_product_check req store ->
  URL_pathname env (exportedDesignUrl req) = None ->
  exists details,
    let r := mkResponse 500
               (ErrorDetailsBody "Failed to download exported design" details) in
    outcome env req w0 = Normal r /\
    log (final env req w0) =
      [EvDbRead true; EvNewURL (exportedDesignUrl req); EvRespond r].
Proof.
  intros Hread Hcheck Hpath.
  assert (Hin : In (EvNewURL (exportedDesignUrl req)) (log (final env req w0)))
    by (apply file_name_derivation_reached_iff; now split).
  clear Hcheck. subst w0.
  handler_paths; in_log Hin; simplify_eq.
  all: eexists; split; reflexivity.
Qed.

(** X3. A 200 response is sent only after the write stream has finished:
    the GET answered 200, its whole body is in the destination file, and
    the URL in the response is the locally served URL of that file. *)
Theorem success_response_follows_finish
    (req : DownloadExportedDesignRequest) (url : string) :
  outcome env req w0 = Normal (mkResponse 200 (DownloadedBody url)) ->
  exists fileName before after content,
    fileName_of env (exportedDesignUrl req) = Some fileName /\
    url = designExportUrl_of env fileName /\
    log (final env req w0) =
      before ++ EvFinish (destinationFile env fileName) :: after /\
    last after = Some (EvRespond (mkResponse 200 (DownloadedBody url))) /\
    net env = Responded 200 content PipeFinish /\
    files (final env req w0) !! destinationFile env fileName = Some content.
Proof.
  intros Hout. subst w0. revert Hout.
  handler_paths; intros Hout; simplify_eq.
  all: do 4 eexists; split; [eapply fileName_of_eq; eassumption|].
  all: split; [reflexivity|].
  all: split; [cut_log|].
  all: split; [reflexivity|].
  all: split; [reflexivity|].
  all: rewrite lookup_insert_eq, lookup_insert_eq; reflexivity.
Qed.

(** X4. When the GET is issued and no file sits at the path of the
    exports directory, the exports directory exists: it was there, or
    [mkdirSync] has created it. *)
Theorem exports_directory_exists_for_download (req : DownloadExportedDesignRequest) :
  fs !! destinationPath env = None ->
  In (EvHttpsGet (exportedDesignUrl req)) (log (final env req w0)) ->
  destinationPath env ∈ dirs (final env req w0).
Proof.
  intros Hnofile Hin. subst w0. handler_paths; in_log Hin.
  all: try (set_solver; fail).
  all: match goal with
       | H : _ || _ = true |- _ =>
           apply orb_true_iff in H as [H|H]; apply bool_decide_eq_true in H;
           [exact H | rewrite Hnofile in H; now destruct H]
       end.
Qed.

End Requests.

(** C10. A request whose productId is the empty string is handled exactly
    as the same request without a productId: same completion, same
    effects, same final world; the store is left as it was, and the
    response is neither 404 nor 400. *)
Theorem empty_product_id_is_no_product_id (env : Env) (url : string) (w : World) :
  handler env (mkRequest (Some EmptyString) url) w = handler env (mkRequest None url) w /\
  products (final env (mkRequest (Some EmptyString) url) w) = products w /\
  match outcome env (mkRequest (Some EmptyString) url) w with
  | Normal r => status r <> 404 /\ status r <> 400
  | Throw _ => True
  | Pending => True
  end.
Proof.
  assert (Heq : handler env (mkRequest (Some EmptyString) url) w =
                handler env (mkRequest None url) w).
  { unfold_handler. cbn [productId exportedDesignUrl Js.truthy].
    repeat (split_head; cbv beta iota); reflexivity. }
  split; [exact Heq|]. unfold outcome, final. rewrite Heq. clear Heq.
  handler_paths; simplify_eq.
  all: split; [reflexivity|]; try exact I.
  all: cbn [status]; split; discriminate.
Qed.

(** Membership in a log that evaluates to a list. *)
Ltac in_list := vm_compute; repeat (first [left; reflexivity | right]).

(** ** Where the specification says more than the code does *)

(** C1, as stated, fails: when the store update throws after a completed
    download, the response is 500 and the downloaded file stays at the
    destination path. *)
Lemma store_update_failure_leaves_download_in_place :
  (outcome Demo.env_store_fails (mkRequest (Some "1") Demo.url) (fresh ∅ ∅ Demo.store) =
     Normal (mkResponse 500
               (ErrorDetailsBody "Failed to download exported design"
                  "EACCES: permission denied")) /\
   files (final Demo.env_store_fails (mkRequest (Some "1") Demo.url) (fresh ∅ ∅ Demo.store))
     !! Demo.dest = Some Demo.png) /\
  ~ (forall (env : Env) (req : DownloadExportedDesignRequest) fs ds store fileName r,
       In (EvHttpsGet (exportedDesignUrl req)) (log (final env req (fresh fs ds store))) ->
       fileName_of env (exportedDesignUrl req) = Some fileName ->
       outcome env req (fresh fs ds store) = Normal r ->
       status r <> 200 ->
       files (final env req (fresh fs ds store)) !! destinationFile env fileName = None).
Proof.
  split; [split; reflexivity|].
  intros claim.
  assert (Habs : files (final Demo.env_store_fails (mkRequest (Some "1") Demo.url)
                           (fresh ∅ ∅ Demo.store))
                  !! destinationFile Demo.env_store_fails "3333-83.png" = None).
  { apply (claim Demo.env_store_fails (mkRequest (Some "1") Demo.url) ∅ ∅ Demo.store
             "3333-83.png"
             (mkResponse 500 (ErrorDetailsBody "Failed to download exported design"
                                "EACCES: permission denied"))).
    - in_list.
    - reflexivity.
    - reflexivity.
    - discriminate. }
  vm_compute in Habs. discriminate Habs.
Qed.

(** C2, as stated, fails: the destination file changes though no 200
    status is ever seen.  A GET answered 404 sees the file that was at the
    path emptied and then removed; a GET that throws leaves a new, empty
    file. *)
Lemma destination_file_changes_without_a_200_status :
  (log (final Demo.env_404 (mkRequest None Demo.url) (fresh Demo.old_files ∅ Demo.store)) =
     [EvDbRead true; EvNewURL Demo.url;
      EvExistsSync "/app/backend/public/exports";
      EvMkdirSync "/app/backend/public/exports" true;
      EvCreateWriteStream Demo.dest; EvHttpsGet Demo.url; EvOpen Demo.dest true;
      EvStatus 404; EvUnlink Demo.dest;
      EvRespond (mkResponse 500
        (ErrorDetailsBody "Failed to download exported design"
           "Failed to download: 404"))] /\
   Demo.old_files !! Demo.dest = Some (bytes_of "old") /\
   files (final Demo.env_404 (mkRequest None Demo.url) (fresh Demo.old_files ∅ Demo.store))
     !! Demo.dest = None /\
   log (final Demo.env_get_throws (mkRequest None Demo.url) (fresh ∅ ∅ Demo.store)) =
     [EvDbRead true; EvNewURL Demo.url;
      EvExistsSync "/app/backend/public/exports";
      EvMkdirSync "/app/backend/public/exports" true;
      EvCreateWriteStream Demo.dest; EvHttpsGet Demo.url;
      EvRespond (mkResponse 500
        (ErrorDetailsBody "Failed to download exported design"
           "ERR_INVALID_PROTOCOL"));
      EvOpen Demo.dest true] /\
   files (final Demo.env_get_throws (mkRequest None Demo.url) (fresh ∅ ∅ Demo.store))
     !! Demo.dest = Some []) /\
  ~ (forall (env : Env) (req : DownloadExportedDesignRequest) fs ds store
            fileName before after,
       fileName_of env (exportedDesignUrl req) = Some fileName ->
       log (final env req (fresh fs ds store)) = before ++ after ->
       ~ In (EvStatus 200) before ->
       files (replay before (fresh fs ds store)) !! destinationFile env fileName =
         fs !! destinationFile env fileName).
Proof.
  split; [repeat split; reflexivity|].
  intros claim.
  pose proof (claim Demo.env_404 (mkRequest None Demo.url) Demo.old_files ∅ Demo.store
                "3333-83.png"
                (log (final Demo.env_404 (mkRequest None Demo.url)
                        (fresh Demo.old_files ∅ Demo.store)))
                []) as Habs.
  specialize (Habs eq_refl (eq_sym (app_nil_r _))).
  assert (Hno : ~ In (EvStatus 200)
                    (log (final Demo.env_404 (mkRequest None Demo.url)
                            (fresh Demo.old_files ∅ Demo.store)))).
  { vm_compute. intuition discriminate. }
  specialize (Habs Hno). vm_compute in Habs. discriminate Habs.
Qed.

(** C3, as stated, fails: an empty productId is supplied, no product has
    it, and the handler goes on to download and responds 200. *)
Lemma empty_product_id_skips_the_product_check :
  outcome Demo.env_ok (mkRequest (Some EmptyString) Demo.url) (fresh ∅ ∅ Demo.store) =
    Normal (mkResponse 200
              (DownloadedBody "http://localhost:3001/public/exports/3333-83.png")) /\
  ~ (forall (env : Env) (req : DownloadExportedDesignRequest) pid fs ds store,
       productId req = Some pid ->
       db_read_error env = None ->
       List.find (fun product => String.eqb (id product) pid) store = None ->
       exists r, outcome env req (fresh fs ds store) = Normal r /\ status r = 404).
Proof.
  split; [reflexivity|].
  intros claim.
  destruct (claim Demo.env_ok (mkRequest (Some EmptyString) Demo.url) EmptyString ∅ ∅ Demo.store)
    as (r & Hout & Hstatus); [reflexivity | reflexivity | reflexivity |].
  vm_compute in Hout. injection Hout as <-. discriminate Hstatus.
Qed.

(** C5, as stated, fails: the GET answers 200, the whole body is in the
    file, and the response is 500 all the same, because the store update
    that follows throws. *)
Lemma store_update_failure_answers_500_after_a_200_download :
  (net Demo.env_store_fails = Responded 200 Demo.png PipeFinish /\
   log (final Demo.env_store_fails (mkRequest (Some "1") Demo.url) (fresh ∅ ∅ Demo.store)) =
     [EvDbRead true; EvNewURL Demo.url;
      EvExistsSync "/app/backend/public/exports";
      EvMkdirSync "/app/backend/public/exports" true;
      EvCreateWriteStream Demo.dest; EvHttpsGet Demo.url; EvOpen Demo.dest true;
      EvStatus 200; EvPipe Demo.dest Demo.png; EvFinish Demo.dest;
      EvExistsSync Demo.dest;
      EvWriteProduct
        (mkProduct "1"
           (Some (mkProductDesign
                    (Some "http://localhost:3001/public/exports/3333-83.png")
                    [("designId", "D1")]))
           [("name", "Mug")])
        false;
      EvRespond (mkResponse 500
        (ErrorDetailsBody "Failed to download exported design"
           "EACCES: permission denied"))]) /\
  ~ (forall (env : Env) (req : DownloadExportedDesignRequest) fs ds store B,
       net env = Responded 200 B PipeFinish ->
       In (EvStatus 200) (log (final env req (fresh fs ds store))) ->
       exists url,
         outcome env req (fresh fs ds store) =
           Normal (mkResponse 200 (DownloadedBody url))).
Proof.
  split; [split; reflexivity|].
  intros claim.
  destruct (claim Demo.env_store_fails (mkRequest (Some "1") Demo.url) ∅ ∅ Demo.store
              Demo.png) as (url & Hout); [reflexivity | in_list |].
  vm_compute in Hout. discriminate Hout.
Qed.

(** C8, as stated, fails: [https://host] sent with the id of no product
    is answered 404; the URL is not looked at. *)
Lemma unknown_product_is_refused_before_the_url_is_read :
  (Url.pathname "https://host" = Some "/" /\
   Js.pop (Js.split_slash "/") = Some EmptyString /\
   log (final Demo.env_ok (mkRequest (Some "7") "https://host") (fresh ∅ ∅ Demo.store)) =
     [EvDbRead true; EvRespond (mkResponse 404 (ErrorBody "Product not found"))]) /\
  ~ (forall (env : Env) (req : DownloadExportedDesignRequest) fs ds store pathname,
       db_read_error env = None ->
       URL_pathname env (exportedDesignUrl req) = Some pathname ->
       Js.truthy (Js.pop (Js.split_slash pathname)) = false ->
       exists r, outcome env req (fresh fs ds store) = Normal r /\ status r = 500).
Proof.
  split; [repeat split; reflexivity|].
  intros claim.
  destruct (claim Demo.env_ok (mkRequest (Some "7") "https://host") ∅ ∅ Demo.store "/")
    as (r & Hout & Hstatus); [reflexivity | reflexivity | reflexivity |].
  vm_compute in Hout. injection Hout as <-. discriminate Hstatus.
Qed.


(** ** The theorems at work on concrete requests *)

(** C1, on a 404 answer. *)
Lemma failed_download_unlinks_witness :
  exists fileName before r,
    fileName_of Demo.env_404 Demo.url = Some fileName /\
    log (final Demo.env_404 (mkRequest None Demo.url) (fresh ∅ ∅ Demo.store)) =
      before ++ [EvUnlink (destinationFile Demo.env_404 fileName); EvRespond r] /\
    outcome Demo.env_404 (mkRequest None Demo.url) (fresh ∅ ∅ Demo.store) = Normal r /\
    status r = 500 /\
    files (final Demo.env_404 (mkRequest None Demo.url) (fresh ∅ ∅ Demo.store))
      !! destinationFile Demo.env_404 fileName = None.
Proof.
  apply (failed_download_unlinks_before_responding
           Demo.env_404 ∅ ∅ Demo.store (mkRequest None Demo.url));
    [in_list | reflexivity].
Defined.

(** C2, at the GET of a successful download. *)
Lemma file_opened_after_get_witness :
  exists fileName earlier ok,
    fileName_of Demo.env_ok Demo.url = Some fileName /\
    [EvDbRead true; EvNewURL Demo.url; EvExistsSync "/app/backend/public/exports";
     EvMkdirSync "/app/backend/public/exports" true; EvCreateWriteStream Demo.dest] =
      earlier ++ [EvCreateWriteStream (destinationFile Demo.env_ok fileName)] /\
    files (replay [EvDbRead true; EvNewURL Demo.url;
                   EvExistsSync "/app/backend/public/exports";
                   EvMkdirSync "/app/backend/public/exports" true;
                   EvCreateWriteStream Demo.dest] (fresh Demo.old_files ∅ Demo.store))
      !! destinationFile Demo.env_ok fileName =
      Demo.old_files !! destinationFile Demo.env_ok fileName /\
    In (EvOpen (destinationFile Demo.env_ok fileName) ok)
       [EvOpen Demo.dest true; EvStatus 200; EvPipe Demo.dest Demo.png;
        EvFinish Demo.dest; EvExistsSync Demo.dest;
        EvRespond (mkResponse 200
          (DownloadedBody "http://localhost:3001/public/exports/3333-83.png"))].
Proof.
  apply (body_written_only_after_200_but_file_opened_regardless
           Demo.env_ok Demo.old_files ∅ Demo.store (mkRequest None Demo.url)
           [EvDbRead true; EvNewURL Demo.url; EvExistsSync "/app/backend/public/exports";
            EvMkdirSync "/app/backend/public/exports" true; EvCreateWriteStream Demo.dest]
           [EvOpen Demo.dest true; EvStatus 200; EvPipe Demo.dest Demo.png;
            EvFinish Demo.dest; EvExistsSync Demo.dest;
            EvRespond (mkResponse 200
              (DownloadedBody "http://localhost:3001/public/exports/3333-83.png"))]
           (EvHttpsGet Demo.url));
    reflexivity.
Defined.

(** C3, for a product id the store does not have. *)
Lemma missing_product_witness :
  let r := mkResponse 404 (ErrorBody "Product not found") in
  outcome Demo.env_ok (mkRequest (Some "7") Demo.url) (fresh ∅ ∅ Demo.store) = Normal r /\
  log (final Demo.env_ok (mkRequest (Some "7") Demo.url) (fresh ∅ ∅ Demo.store)) =
    [EvDbRead true; EvRespond r].
Proof.
  apply (missing_product_or_design_is_refused
           Demo.env_ok ∅ ∅ Demo.store (mkRequest (Some "7") Demo.url) "7");
    [reflexivity | discriminate | reflexivity].
Defined.

(** C4, on a 404 answer. *)
Lemma non_200_status_witness :
  In (EvStatus 404)
     (log (final Demo.env_404 (mkRequest None Demo.url) (fresh ∅ ∅ Demo.store))) /\
  404 <> 200 /\
  exists fileName,
    fileName_of Demo.env_404 Demo.url = Some fileName /\
    files (final Demo.env_404 (mkRequest None Demo.url) (fresh ∅ ∅ Demo.store))
      !! destinationFile Demo.env_404 fileName = None /\
    outcome Demo.env_404 (mkRequest None Demo.url) (fresh ∅ ∅ Demo.store) =
      Normal (mkResponse 500
                (ErrorDetailsBody "Failed to download exported design"
                   "Failed to download: 404")).
Proof.
  split; [in_list|]. split; [discriminate|].
  apply (non_200_status_removes_file_and_responds_500
           Demo.env_404 ∅ ∅ Demo.store (mkRequest None Demo.url) 404);
    [in_list | discriminate].
Defined.

(** C5, for a download that succeeds. *)
Lemma successful_download_witness :
  exists pathname fileName,
    Url.pathname Demo.url = Some pathname /\
    contains_slash fileName = false /\
    (pathname = fileName \/ exists dir, pathname = dir +:+ "/" +:+ fileName) /\
    outcome Demo.env_ok (mkRequest (Some "1") Demo.url) (fresh ∅ ∅ Demo.store) =
      Normal (mkResponse 200
                (DownloadedBody ("http://localhost:3001" +:+ "/public/exports/" +:+ fileName))) /\
    files (final Demo.env_ok (mkRequest (Some "1") Demo.url) (fresh ∅ ∅ Demo.store))
      !! (destinationPath Demo.env_ok +:+ "/" +:+ fileName) = Some Demo.png.
Proof.
  apply (successful_download_stores_body_and_returns_url
           Demo.env_ok ∅ ∅ Demo.store (mkRequest (Some "1") Demo.url)
           Demo.png "http://localhost:3001");
    [reflexivity | in_list | reflexivity | reflexivity].
Defined.

(** C6, for the product with design metadata. *)
Lemma recorded_export_url_witness :
  (exists fileName,
     fileName_of Demo.env_ok Demo.url = Some fileName /\
     "http://localhost:3001/public/exports/3333-83.png" =
       designExportUrl_of Demo.env_ok fileName) /\
  exists before after,
    Demo.store = before ++ mkProduct "1" (Some (mkProductDesign None [("designId", "D1")]))
                             [("name", "Mug")] :: after /\
    products (final Demo.env_ok (mkRequest (Some "1") Demo.url) (fresh ∅ ∅ Demo.store)) =
      before ++
      mkProduct "1"
        (Some (mkProductDesign (Some "http://localhost:3001/public/exports/3333-83.png")
                 [("designId", "D1")]))
        [("name", "Mug")] :: after /\
    Forall (fun q => id q <> "1") before.
Proof.
  apply (successful_download_records_export_url
           Demo.env_ok ∅ ∅ Demo.store (mkRequest (Some "1") Demo.url) "1"
           "http://localhost:3001/public/exports/3333-83.png"
           (mkProduct "1" (Some (mkProductDesign None [("designId", "D1")])) [("name", "Mug")])
           (mkProductDesign None [("designId", "D1")]));
    [reflexivity | discriminate | reflexivity | reflexivity | reflexivity].
Defined.

(** C7, for a store file that is missing. *)
Lemma store_read_failure_escapes_the_handler :
  handler Demo.env_read_fails (mkRequest None Demo.url) (fresh ∅ ∅ Demo.store) =
    (Throw (Js.Error "ENOENT: no such file or directory"),
     record (EvDbRead false) (fresh ∅ ∅ Demo.store)).
Proof.
  apply (store_read_error_is_not_caught Demo.env_read_fails
           (mkRequest None Demo.url) (fresh ∅ ∅ Demo.store)
           (Js.Error "ENOENT: no such file or directory")).
  reflexivity.
Defined.

(** C8, on the example of the specification: [https://host] has pathname
    ["/"], sent for the product that has design metadata. *)
Lemma url_without_file_name_witness :
  let r := mkResponse 500
             (ErrorDetailsBody "Failed to download exported design"
                "Could not extract filename from export URL") in
  outcome Demo.env_ok (mkRequest (Some "1") "https://host") (fresh ∅ ∅ Demo.store) = Normal r /\
  log (final Demo.env_ok (mkRequest (Some "1") "https://host") (fresh ∅ ∅ Demo.store)) =
    [EvDbRead true; EvNewURL "https://host"; EvRespond r].
Proof.
  apply (url_without_file_name_is_rejected
           Demo.env_ok ∅ ∅ Demo.store (mkRequest (Some "1") "https://host") "/").
  - reflexivity.
  - right. exists "1", (mkProduct "1" (Some (mkProductDesign None [("designId", "D1")]))
                          [("name", "Mug")]), (mkProductDesign None [("designId", "D1")]).
    repeat split; reflexivity.
  - reflexivity.
  - right. exists EmptyString. reflexivity.
Defined.



(** X2, for a string that is no URL. *)
Lemma malformed_url_witness :
  exists details,
    let r := mkResponse 500
               (ErrorDetailsBody "Failed to download exported design" details) in
    outcome Demo.env_ok (mkRequest None "not a url") (fresh ∅ ∅ Demo.store) = Normal r /\
    log (final Demo.env_ok (mkRequest None "not a url") (fresh ∅ ∅ Demo.store)) =
      [EvDbRead true; EvNewURL "not a url"; EvRespond r].
Proof.
  apply (malformed_url_is_rejected
           Demo.env_ok ∅ ∅ Demo.store (mkRequest None "not a url"));
    [reflexivity | left; reflexivity | reflexivity].
Defined.

(** X3, for a download that succeeds. *)
Lemma response_follows_finish_witness :
  exists fileName before after content,
    fileName_of Demo.env_ok Demo.url = Some fileName /\
    "http://localhost:3001/public/exports/3333-83.png" =
      designExportUrl_of Demo.env_ok fileName /\
    log (final Demo.env_ok (mkRequest None Demo.url) (fresh ∅ ∅ Demo.store)) =
      before ++ EvFinish (destinationFile Demo.env_ok fileName) :: after /\
    last after =
      Some (EvRespond (mkResponse 200
              (DownloadedBody "http://localhost:3001/public/exports/3333-83.png"))) /\
    net Demo.env_ok = Responded 200 content PipeFinish /\
    files (final Demo.env_ok (mkRequest None Demo.url) (fresh ∅ ∅ Demo.store))
      !! destinationFile Demo.env_ok fileName = Some content.
Proof.
  apply (success_response_follows_finish
           Demo.env_ok ∅ ∅ Demo.store (mkRequest None Demo.url)
           "http://localhost:3001/public/exports/3333-83.png").
  reflexivity.
Defined.

(** X4, for a download into a directory that is not there yet. *)
Lemma exports_directory_witness :
  destinationPath Demo.env_ok
    ∈ dirs (final Demo.env_ok (mkRequest None Demo.url) (fresh ∅ ∅ Demo.store)).
Proof.
  apply (exports_directory_exists_for_download
           Demo.env_ok ∅ ∅ Demo.store (mkRequest None Demo.url));
    [reflexivity | in_list].
Defined.


(** * More of the handler *)

(** ** More on strings *)

Lemma join_slash_cons (seg : string) (rest : list string) :
  rest <> [] -> join_slash (seg :: rest) = seg +:+ "/" +:+ join_slash rest.
Proof. destruct rest; [contradiction | reflexivity]. Qed.

(** X7. Splitting at ["/"] loses nothing: joining the segments with ["/"]
    gives the string back. *)
Theorem join_split_slash (s : string) : join_slash (Js.split_slash s) = s.
Proof.
  induction s as [|c rest IH]; [reflexivity|]. cbn [Js.split_slash].
  destruct (Ascii.eqb_spec c "/") as [->|Hc].
  - rewrite join_slash_cons by apply split_slash_nonempty. now rewrite IH.
  - pose proof (split_slash_nonempty rest) as Hne.
    destruct (Js.split_slash rest) as [|seg segs]; [contradiction|].
    destruct segs as [|seg' segs'].
    + cbn in *. now rewrite IH.
    + rewrite join_slash_cons in * by discriminate.
      rewrite string_app_cons. now rewrite IH.
Qed.

Lemma join_slash_snoc (segs : list string) (f : string) :
  segs <> [] -> join_slash (segs ++ [f]) = join_slash segs +:+ "/" +:+ f.
Proof.
  induction segs as [|seg rest IH]; [contradiction|]. intros _.
  destruct rest as [|seg' rest']; [reflexivity|].
  rewrite <- app_comm_cons.
  rewrite join_slash_cons by (rewrite <- app_comm_cons; discriminate).
  rewrite IH by discriminate.
  rewrite (join_slash_cons seg) by discriminate.
  now rewrite !string_app_assoc.
Qed.

(** X6. The file name is the part after the last ["/"]: [pop] of the
    split is [f] exactly when [f] has no ["/"] and the string is [f] or
    ends in ["/"] followed by [f]. *)
Theorem last_segment_iff (s f : string) :
  Js.pop (Js.split_slash s) = Some f <->
  contains_slash f = false /\ (s = f \/ exists dir, s = dir +:+ "/" +:+ f).
Proof.
  unfold Js.pop. split.
  - intros Hlast. apply last_Some in Hlast as [segs Hsegs].
    pose proof (split_slash_segments s) as Hall. rewrite Hsegs in Hall.
    apply Forall_app in Hall as [_ Hf]. inversion Hf; subst. split; [assumption|].
    pose proof (join_split_slash s) as Hjoin. rewrite Hsegs in Hjoin.
    destruct segs as [|seg rest]; [left; now rewrite <- Hjoin|].
    right. exists (join_slash (seg :: rest)). rewrite <- Hjoin.
    now apply join_slash_snoc.
  - intros [Hf [->|[dir ->]]].
    + now rewrite split_slash_without_slash.
    + change ("/" +:+ f) with (String "/" f).
      rewrite split_slash_app, (split_slash_without_slash f Hf). apply last_snoc.
Qed.

Lemma prefix_split (pat s : string) :
  String.prefix pat s = true -> s = pat +:+ Js.drop_chars (String.length pat) s.
Proof.
  revert s. induction pat as [|a pat IH]; intros s H; [reflexivity|].
  destruct s as [|b s]; [discriminate H|]. cbn in H.
  destruct (ascii_dec a b) as [->|]; [|discriminate H].
  rewrite string_app_cons. cbn [String.length Js.drop_chars]. f_equal. now apply IH.
Qed.

Lemma drop_chars_nil (k : nat) : Js.drop_chars k EmptyString = EmptyString.
Proof. destruct k; reflexivity. Qed.

(** X10. [s.replace(pat, rep)] with a replacement that has no [$] in
    it, as the one that makes [destinationPath] out of [__dirname],
    changes the first occurrence of the pattern and nothing else: either
    the string is [before ++ pat ++ after] with no occurrence starting in
    [before] and the result is [before ++ rep ++ after], or the pattern
    occurs nowhere and the string comes back as it is. *)
Theorem replace_first_occurrence (pat rep s : string) :
  contains_dollar rep = false ->
  (exists before after,
      s = before +:+ pat +:+ after /\
      Js.replace pat rep s = before +:+ rep +:+ after /\
      forall k, (k < String.length before)%nat ->
                String.prefix pat (Js.drop_chars k s) = false) \/
  (Js.replace pat rep s = s /\
   forall k, String.prefix pat (Js.drop_chars k s) = false).
Proof.
  intros _. induction s as [|c r IH].
  - cbn [Js.replace]. destruct (String.prefix pat EmptyString) eqn:Hp.
    + left. exists EmptyString, (Js.drop_chars (String.length pat) EmptyString).
      split; [now apply prefix_split|]. split; [reflexivity|]. cbn. lia.
    + right. split; [reflexivity|]. intros k. now rewrite drop_chars_nil.
  - cbn [Js.replace]. destruct (String.prefix pat (String c r)) eqn:Hp.
    + left. exists EmptyString, (Js.drop_chars (String.length pat) (String c r)).
      split; [now apply prefix_split|]. split; [reflexivity|]. cbn. lia.
    + destruct IH as [(before & after & Hr & Hrep & Hnone)|[Hrep Hnone]].
      * left. exists (String c before), after. rewrite !string_app_cons.
        split; [now f_equal|]. split; [now f_equal|].
        intros [|k] Hk; [exact Hp|]. cbn in Hk. apply Hnone. lia.
      * right. split; [now f_equal|]. intros [|k]; [exact Hp | apply Hnone].
Qed.

(** ** Frame, edges and counts *)

Section Frame.
Variable env : Env.
Variable fs : gmap string (list Byte.byte).
Variable ds : gset string.
Variable store : list Product.
Let w0 : World := fresh fs ds store.

(** X9. Whatever file the handler creates is named by the exports
    directory, a ["/"] and the derived file name, which is not empty and
    has no ["/"] in it. *)
Theorem created_file_is_entry_of_exports_directory
    (req : DownloadExportedDesignRequest) (path : string) :
  In (EvCreateWriteStream path) (log (final env req w0)) ->
  exists fileName,
    fileName_of env (exportedDesignUrl req) = Some fileName /\
    path = destinationPath env +:+ "/" +:+ fileName /\
    fileName <> EmptyString /\
    contains_slash fileName = false.
Proof.
  intros Hin. subst w0. handler_paths; in_log Hin; simplify_eq.
  all: eexists; split; [eapply fileName_of_eq; eassumption|].
  all: split; [reflexivity|].
  all: split; [now apply truthy_Some|].
  all: match goal with
       | H : Js.pop _ = Some _ |- _ => now apply popped_segment_is_suffix in H as [H _]
       end.
Qed.

(** X8. A request that gets to the file name is stopped there, with the
    extraction error and nothing else done, exactly when the pathname of
    its URL is empty or ends in ["/"]. *)
Theorem file_name_rejected_iff
    (req : DownloadExportedDesignRequest) (pathname : string) :
  In (EvNewURL (exportedDesignUrl req)) (log (final env req w0)) ->
  URL_pathname env (exportedDesignUrl req) = Some pathname ->
  log (final env req w0) =
    [EvDbRead true; EvNewURL (exportedDesignUrl req);
     EvRespond (mkResponse 500
                  (ErrorDetailsBody "Failed to download exported design"
                     "Could not extract filename from export URL"))] <->
  pathname = EmptyString \/ exists dir, pathname = dir +:+ "/".
Proof.
  intros Hin Hpath. rewrite <- no_file_name_iff. subst w0.
  handler_paths; in_log Hin; simplify_eq.
  all: match goal with
       | H : Js.pop _ = _ |- _ => rewrite H
       end.
  all: match goal with
       | H : Js.truthy _ = _ |- _ => try rewrite H
       end.
  all: split; intros H; try discriminate H; try reflexivity.
Qed.

(** X11. No file but the destination file is touched: at every other
    path the files are after the request what they were before. *)
Theorem other_files_untouched
    (req : DownloadExportedDesignRequest) (path : string) :
  (forall fileName,
     fileName_of env (exportedDesignUrl req) = Some fileName ->
     path <> destinationFile env fileName) ->
  files (final env req w0) !! path = fs !! path.
Proof.
  intros Hother. subst w0. handler_paths.
  all: try reflexivity.
  all: match goal with
       | Hp : URL_pathname env _ = Some _, Hf : Js.pop _ = Some ?f |- _ =>
           pose proof (Hother f (fileName_of_eq _ _ _ _ Hp Hf)) as Hne
       end.
  all: rewrite ?lookup_delete_ne, ?lookup_insert_ne by congruence; reflexivity.
Qed.

(** X12. The store is changed only by a request with a non-empty
    productId that is answered 200. *)
Theorem store_changes_only_on_success (req : DownloadExportedDesignRequest) :
  products (final env req w0) = store \/
  (Js.truthy (productId req) = true /\
   exists url, outcome env req w0 = Normal (mkResponse 200 (DownloadedBody url))).
Proof.
  subst w0. handler_paths.
  all: try (left; reflexivity).
  all: right; split; [congruence | eexists; reflexivity].
Qed.

(** X13. When the exports directory is there, [mkdirSync] is not called
    and the directories stay as they are. *)
Theorem present_directory_is_left_alone (req : DownloadExportedDesignRequest) :
  destinationPath env ∈ ds ->
  dirs (final env req w0) = ds /\
  forall ok, ~ In (EvMkdirSync (destinationPath env) ok) (log (final env req w0)).
Proof.
  intros Hdir. subst w0. handler_paths.
  all: try (split; [reflexivity | intros ok Hin; in_log Hin]; fail).
  all: exfalso.
  all: match goal with
       | H : _ || _ = false |- _ =>
           apply orb_false_iff in H as [H _]; apply bool_decide_eq_false in H; tauto
       end.
Qed.

(** X14. One request makes at most one write stream, which opens at
    most once, and issues at most one GET; it sends exactly one response
    when the promise of the handler is fulfilled, and none when the
    promise rejects or never settles. *)
Theorem no_retry_and_one_response (req : DownloadExportedDesignRequest) :
  (length (List.filter is_create (log (final env req w0))) <= 1)%nat /\
  (length (List.filter is_open (log (final env req w0))) <= 1)%nat /\
  (length (List.filter is_get (log (final env req w0))) <= 1)%nat /\
  length (List.filter is_respond (log (final env req w0))) =
    match outcome env req w0 with
    | Normal _ => 1%nat
    | Throw _ | Pending => 0%nat
    end.
Proof.
  subst w0. handler_paths; simplify_eq.
  all: cbn; repeat split; lia.
Qed.


(** X16. Without [BACKEND_URL] the returned URL starts with the text
    [undefined]. *)
Theorem missing_backend_url_is_spelled_undefined
    (req : DownloadExportedDesignRequest) (url : string) :
  BACKEND_URL env = None ->
  outcome env req w0 = Normal (mkResponse 200 (DownloadedBody url)) ->
  exists fileName,
    fileName_of env (exportedDesignUrl req) = Some fileName /\
    url = "undefined/public/exports/" +:+ fileName.
Proof.
  intros Hbase Hout. subst w0. revert Hout.
  handler_paths; intros Hout; simplify_eq.
  all: eexists; split; [eapply fileName_of_eq; eassumption|].
  all: unfold designExportUrl_of; rewrite Hbase; reflexivity.
Qed.

(** X17. When the exports directory is missing and [mkdirSync] throws,
    the response is 500 with the message of the error, no stream is
    opened, no GET is issued, and files, directories and store are
    unchanged. *)
Theorem mkdir_failure_stops_before_download
    (req : DownloadExportedDesignRequest) (err : Js.Thrown) :
  In (EvExistsSync (destinationPath env)) (log (final env req w0)) ->
  destinationPath env ∉ ds ->
  fs !! destinationPath env = None ->
  mkdir_error env = Some err ->
  outcome env req w0 =
    Normal (mkResponse 500
              (ErrorDetailsBody "Failed to download exported design" (details_of err))) /\
  final env req w0 =
    mkWorld fs ds store
      [EvDbRead true; EvNewURL (exportedDesignUrl req);
       EvExistsSync (destinationPath env); EvMkdirSync (destinationPath env) false;
       EvRespond (mkResponse 500
                    (ErrorDetailsBody "Failed to download exported design"
                       (details_of err)))].
Proof.
  intros Hin Hnodir Hnofile Hmk. subst w0.
  handler_paths; in_log Hin; simplify_eq.
  all: try (split; reflexivity).
  all: exfalso.
  all: match goal with
       | H : _ || _ = true |- _ =>
           apply orb_true_iff in H as [H|H]; apply bool_decide_eq_true in H;
           [tauto | rewrite Hnofile in H; now destruct H]
       end.
Qed.


End Frame.

(** ** Serving a request twice *)

Lemma destinationFile_not_directory (env : Env) (fileName : string) :
  destinationFile env fileName <> destinationPath env.
Proof.
  unfold destinationFile. intros H. apply (f_equal String.length) in H.
  rewrite !string_length_app in H. cbn in H. lia.
Qed.

Lemma find_writeProduct (wanted : string) (p p' : Product) (store : list Product) :
  List.find (fun product => String.eqb (id product) wanted) store = Some p ->
  id p' = wanted ->
  List.find (fun product => String.eqb (id product) wanted) (writeProduct p' store) = Some p'.
Proof.
  intros Hfind <-. induction store as [|q rest IH]; [discriminate Hfind|].
  cbn in *. destruct (String.eqb (id q) (id p')) eqn:Hq.
  - cbn. now rewrite String.eqb_refl.
  - cbn. rewrite Hq. now apply IH.
Qed.

Lemma writeProduct_twice (p' : Product) (store : list Product) :
  writeProduct p' (writeProduct p' store) = writeProduct p' store.
Proof.
  induction store as [|q rest IH]; [reflexivity|]. cbn.
  destruct (String.eqb (id q) (id p')) eqn:Hq; cbn.
  - now rewrite String.eqb_refl.
  - rewrite Hq. now f_equal.
Qed.

Lemma with_export_url_twice (p : Product) (url : string) :
  with_export_url (with_export_url p url) url = with_export_url p url.
Proof. reflexivity. Qed.

Ltac tidy_files :=
  repeat match goal with
    | H : context [<[destinationFile ?e ?f := _]> _ !! destinationPath ?e] |- _ =>
        rewrite lookup_insert_ne in H by apply destinationFile_not_directory
    | H : context [delete (destinationFile ?e ?f) _ !! destinationPath ?e] |- _ =>
        rewrite lookup_delete_ne in H by apply destinationFile_not_directory
    end;
  repeat first
    [ rewrite lookup_insert_eq
    | rewrite insert_insert_eq
    | rewrite delete_insert_eq
    | rewrite delete_delete_eq
    | progress cbn [default from_option app] ].

Ltac directory_is_there :=
  match goal with
  | H : bool_decide (?dp ∈ ?dirs) || _ = false |- _ =>
      apply orb_false_iff in H as [H _]; apply bool_decide_eq_false in H;
      apply H; set_solver
  end.

Section Retry.
Variable env : Env.
Variable fs : gmap string (list Byte.byte).
Variable ds : gset string.
Variable store : list Product.
Let w0 : World := fresh fs ds store.

(** X19. Serving the same request again, in the same environment, from
    the files, directories and store the first run left, gives the same
    response and leaves files, directories and store as the first run
    left them. *)
Theorem retry_changes_nothing (req : DownloadExportedDesignRequest) :
  let w1 := final env req w0 in
  let again := fresh (files w1) (dirs w1) (products w1) in
  outcome env req again = outcome env req w0 /\
  files (final env req again) = files w1 /\
  dirs (final env req again) = dirs w1 /\
  products (final env req again) = products w1.
Proof.
  subst w0. cbv zeta. unfold outcome, final.
  destruct (handler env req (fresh fs ds store)) as [c1 w1] eqn:H1.
  cbn [fst snd].
  destruct (handler env req (fresh (files w1) (dirs w1) (products w1))) as [c2 w2] eqn:H2.
  cbn [fst snd]. revert H1 H2.
  unfold_handler; cbn [productId exportedDesignUrl].
  repeat (split_head; cbv beta iota).
  all: late_stream.
  all: intros [= <- <-]; world_simpl; intros [= <- <-]; world_simpl; bool_facts.
  all: try congruence.
  all: try (repeat split; reflexivity).
  all: tidy_files.
  all: try congruence.
  all: try (repeat split; reflexivity).
  all: try (exfalso; directory_is_there; fail).
  all: repeat match goal with
         | H : List.find _ (writeProduct _ _) = _ |- _ =>
             erewrite find_writeProduct in H
               by (eassumption || (cbn [id with_export_url]; eapply find_id_eq; eassumption))
         end; simplify_eq.
  all: try (cbn in *; congruence).
  all: rewrite ?with_export_url_twice, ?writeProduct_twice.
  all: try (repeat split; first [reflexivity | set_solver]; fail).
Qed.
End Retry.

(** ** The theorems above at work *)

(** X10, for the directory of the running example. *)
Lemma replace_first_occurrence_witness :
  (exists before after,
      "/app/backend/routes" = before +:+ "/routes" +:+ after /\
      Js.replace "/routes" "/public/exports" "/app/backend/routes" =
        before +:+ "/public/exports" +:+ after /\
      forall k, (k < String.length before)%nat ->
                String.prefix "/routes" (Js.drop_chars k "/app/backend/routes") = false) \/
  (Js.replace "/routes" "/public/exports" "/app/backend/routes" = "/app/backend/routes" /\
   forall k, String.prefix "/routes" (Js.drop_chars k "/app/backend/routes") = false).
Proof.
  apply (replace_first_occurrence "/routes" "/public/exports" "/app/backend/routes").
  reflexivity.
Defined.

(** X8, for a URL whose path ends in a slash. *)
Lemma file_name_rejected_witness :
  log (final Demo.env_ok (mkRequest None "https://host/a/") (fresh ∅ ∅ Demo.store)) =
    [EvDbRead true; EvNewURL "https://host/a/";
     EvRespond (mkResponse 500
                  (ErrorDetailsBody "Failed to download exported design"
                     "Could not extract filename from export URL"))] <->
  "/a/" = EmptyString \/ exists dir, "/a/" = dir +:+ "/".
Proof.
  apply (file_name_rejected_iff
           Demo.env_ok ∅ ∅ Demo.store (mkRequest None "https://host/a/") "/a/");
    [in_list | reflexivity].
Defined.

(** X9, for the file of a successful download. *)
Lemma created_file_witness :
  exists fileName,
    fileName_of Demo.env_ok Demo.url = Some fileName /\
    Demo.dest = destinationPath Demo.env_ok +:+ "/" +:+ fileName /\
    fileName <> EmptyString /\
    contains_slash fileName = false.
Proof.
  apply (created_file_is_entry_of_exports_directory
           Demo.env_ok ∅ ∅ Demo.store (mkRequest None Demo.url) Demo.dest).
  in_list.
Defined.

(** X11, for another export beside the one downloaded. *)
Lemma other_files_witness :
  files (final Demo.env_ok (mkRequest None Demo.url) (fresh Edge.kept_files ∅ Demo.store))
    !! Edge.other = Edge.kept_files !! Edge.other.
Proof.
  apply (other_files_untouched
           Demo.env_ok Edge.kept_files ∅ Demo.store (mkRequest None Demo.url) Edge.other).
  intros fileName Hname. vm_compute in Hname. injection Hname as <-. discriminate.
Defined.

(** X13, for an exports directory that is there. *)
Lemma present_directory_witness :
  dirs (final Demo.env_ok (mkRequest None Demo.url) (fresh ∅ {[ Edge.exports ]} Demo.store)) =
    {[ Edge.exports ]} /\
  forall ok,
    ~ In (EvMkdirSync (destinationPath Demo.env_ok) ok)
        (log (final Demo.env_ok (mkRequest None Demo.url)
                (fresh ∅ {[ Edge.exports ]} Demo.store))).
Proof.
  apply (present_directory_is_left_alone
           Demo.env_ok ∅ {[ Edge.exports ]} Demo.store (mkRequest None Demo.url)).
  apply elem_of_singleton. reflexivity.
Defined.

(** X16, for a backend without [BACKEND_URL]. *)
Lemma missing_backend_url_witness :
  exists fileName,
    fileName_of Edge.env_no_base Demo.url = Some fileName /\
    "undefined/public/exports/3333-83.png" = "undefined/public/exports/" +:+ fileName.
Proof.
  apply (missing_backend_url_is_spelled_undefined
           Edge.env_no_base ∅ ∅ Demo.store (mkRequest None Demo.url)
           "undefined/public/exports/3333-83.png");
    reflexivity.
Defined.

(** X17, for a directory that cannot be created. *)
Lemma mkdir_failure_witness :
  outcome Edge.env_mkdir_fails (mkRequest None Demo.url) (fresh ∅ ∅ Demo.store) =
    Normal (mkResponse 500
              (ErrorDetailsBody "Failed to download exported design"
                 (details_of (Js.Error "EACCES: permission denied, mkdir")))) /\
  final Edge.env_mkdir_fails (mkRequest None Demo.url) (fresh ∅ ∅ Demo.store) =
    mkWorld ∅ ∅ Demo.store
      [EvDbRead true; EvNewURL (exportedDesignUrl (mkRequest None Demo.url));
       EvExistsSync (destinationPath Edge.env_mkdir_fails);
       EvMkdirSync (destinationPath Edge.env_mkdir_fails) false;
       EvRespond (mkResponse 500
                    (ErrorDetailsBody "Failed to download exported design"
                       (details_of (Js.Error "EACCES: permission denied, mkdir"))))].
Proof.
  apply (mkdir_failure_stops_before_download
           Edge.env_mkdir_fails ∅ ∅ Demo.store (mkRequest None Demo.url)
           (Js.Error "EACCES: permission denied, mkdir"));
    [in_list | apply not_elem_of_empty | reflexivity | reflexivity].
Defined.

